(** * The sync-to-network HTTP bridge

    A shallow embedding of [chrome/browser/sync/glue/http_bridge.h]:
    the bridged request context ([HttpBridge::RequestContext]), the one-shot
    bridge ([HttpBridge]) and its factory ([HttpBridgeFactory]).

    The header gives the data members of the three classes and the bodies of
    the inline members of [RequestContext].  Those are embedded as written.
    The out-of-line members (declared in the header, defined in the
    implementation file) and the types of the network layer are modelled
    from the specification; every such definition says so in its comment.

    Conventions: a C++ [int] is a [Z] in the range of 32 bits (the ints of
    this header are stored and handed back; the one conversion to [int], of a
    count of bytes, wraps around); a [std::string] used as text is a [string],
    one used as a byte buffer is a [list byte]; a pointer to a
    reference-counted object is a location in a [gmap]. *)

From stdpp Require Import base numbers option list strings gmap relations.
From Stdlib Require Import Strings.Byte.

Local Open Scope string_scope.
Local Open Scope list_scope.
Local Open Scope Z_scope.

(* ===================================================================== *)
(** * Part I: definitions                                                 *)
(* ===================================================================== *)

(** ** Types of the network layer *)

(** Modelled from the spec: [GURL] (googleurl) is missing; a target is the
    text of a URL and a port. *)
Record GURL : Type := mkGURL {
  url_spec : string;
  url_port : Z
}.

(** Modelled from the spec: [URLRequestStatus] is missing.  The engine reports
    a transport status and an error code; the status is transport success or a
    failure (network failure, engine-internal abort). *)
Inductive Status : Type := SUCCESS | CANCELED | FAILED.

Record URLRequestStatus : Type := mkStatus {
  status : Status;
  os_error : Z
}.

(** Modelled from the spec: [URLRequest] is missing; a request is known by its
    target and its state. *)
Record URLRequest : Type := mkRequest {
  request_url : GURL;
  request_status : URLRequestStatus
}.

(** Modelled from the spec: the proxy configuration of a context, an opaque
    value that contexts share. *)
Definition ProxyService : Type := string.

(** Modelled from the spec: the data members of the base class
    [URLRequestContext] that the header's comments name, the accept-language,
    the accept-charset and the proxy service. *)
Record URLRequestContext : Type := mkURLRequestContext {
  accept_language_ : string;
  accept_charset_ : string;
  proxy_service_ : ProxyService
}.

(** A [URLRequestContext*] as its holder sees it: the base-class members and
    the two virtual members, dispatched on the dynamic type of the object
    (typically the context of the active profile). *)
Record ContextObject : Type := mkContextObject {
  context_members : URLRequestContext;
  virtual_GetUserAgent : GURL -> string;
  virtual_AllowSendingCookies : URLRequest -> bool
}.

(** ** [HttpBridge::RequestContext] *)

(** [class RequestContext : public URLRequestContext]: the inherited members,
    then [user_agent_] and [baseline_context_]. *)
Record RequestContext : Type := mkRequestContext {
  inherited : URLRequestContext;
  user_agent_ : string;
  baseline_context_ : ContextObject
}.

(** [std::string::empty]. *)
Definition empty_string (s : string) : bool :=
  match s with
  | EmptyString => true
  | String _ _ => false
  end.

(** [void set_user_agent(const std::string& ua) { user_agent_ = ua; }] *)
Definition set_user_agent (ua : string) (c : RequestContext) : RequestContext :=
  {| inherited := inherited c;
     user_agent_ := ua;
     baseline_context_ := baseline_context_ c |}.

(** [bool is_user_agent_set() const { return !user_agent_.empty(); }] *)
Definition is_user_agent_set (c : RequestContext) : bool :=
  negb (empty_string (user_agent_ c)).

(** [GetUserAgent]: the qualified call [URLRequestContext::GetUserAgent(url)]
    runs the base-class implementation on this object.  That implementation
    is not part of the header: it is the parameter [base_GetUserAgent], a
    function of the inherited members and the URL. *)
Definition GetUserAgent
    (base_GetUserAgent : URLRequestContext -> GURL -> string)
    (c : RequestContext) (url : GURL) : string :=
  if empty_string (user_agent_ c)
  then base_GetUserAgent (inherited c) url
  else user_agent_ c.

(** [virtual bool AllowSendingCookies(const URLRequest* request) const
    { return false; }] *)
Definition AllowSendingCookies (c : RequestContext) (request : URLRequest) : bool :=
  false.

(** Modelled from the spec: the body of the constructor
    [RequestContext(URLRequestContext* baseline_context)] is missing.  The
    baseline is used to obtain the accept-language, the accept-charset and the
    proxy service; the override starts out empty (not set). *)
Definition RequestContext_ctor (baseline_context : ContextObject) : RequestContext :=
  {| inherited :=
       {| accept_language_ := accept_language_ (context_members baseline_context);
          accept_charset_ := accept_charset_ (context_members baseline_context);
          proxy_service_ := proxy_service_ (context_members baseline_context) |};
     user_agent_ := EmptyString;
     baseline_context_ := baseline_context |}.

(** The policy as the network layer sees it, a [URLRequestContext*]: the
    inherited members and the two overridden virtual members. *)
Definition as_context
    (base_GetUserAgent : URLRequestContext -> GURL -> string)
    (c : RequestContext) : ContextObject :=
  {| context_members := inherited c;
     virtual_GetUserAgent := GetUserAgent base_GetUserAgent c;
     virtual_AllowSendingCookies := AllowSendingCookies c |}.

(** A sequence of [set_user_agent] calls, first call first. *)
Definition set_user_agents (uas : list string) (c : RequestContext) : RequestContext :=
  foldl (fun acc ua => set_user_agent ua acc) c uas.

(** Sample values used in the examples. *)
Definition sample_url : GURL := mkGURL "https://sync.example/command" 443.

Definition sample_baseline : ContextObject :=
  {| context_members :=
       {| accept_language_ := "en-US,en";
          accept_charset_ := "ISO-8859-1,utf-8";
          proxy_service_ := "direct" |};
     virtual_GetUserAgent := fun _ => "Mozilla/5.0 Chrome";
     virtual_AllowSendingCookies := fun _ => true |}.

Definition sample_request : URLRequest :=
  {| request_url := sample_url; request_status := mkStatus SUCCESS 0 |}.

(** A base-class [GetUserAgent] that knows no user agent. *)
Definition no_user_agent (members : URLRequestContext) (url : GURL) : string :=
  EmptyString.

(** The reading of the fallback under which an unset policy answers with the
    default user agent of its baseline context, i.e. with
    [baseline_context_->GetUserAgent(url)]. *)
Definition falls_back_to_baseline
    (base_GetUserAgent : URLRequestContext -> GURL -> string)
    (c : RequestContext) (url : GURL) : Prop :=
  is_user_agent_set c = false ->
  GetUserAgent base_GetUserAgent c url =
  virtual_GetUserAgent (baseline_context_ c) url.

(** ** [HttpBridge] *)

(** A location of the heap of reference-counted objects. *)
Definition loc : Type := nat.

(** [class MessageLoop;] is only declared.  Two loops take part: the loop of
    the thread a bridge is created on, which blocks in [MakeSynchronousPost],
    and the IO loop. *)
Inductive MessageLoop : Type := SyncerLoop | IOLoop.

(** Modelled from the spec: [base::WaitableEvent] is missing; an event is
    signaled or not.  [times_signaled] counts the calls to [Signal], it is
    there for the statements only. *)
Record WaitableEvent : Type := mkEvent {
  signaled : bool;
  times_signaled : nat
}.

Definition Signal (e : WaitableEvent) : WaitableEvent :=
  {| signaled := true; times_signaled := S (times_signaled e) |}.

(** Modelled from the spec: [URLFetcher] is missing; a fetcher is the POST it
    was asked to submit, under a request context. *)
Record URLFetcher : Type := mkFetcher {
  fetch_url : GURL;
  fetch_context : loc;
  fetch_extra_headers : string;
  upload_content_type : string;
  upload_content : list byte
}.

(** Modelled from the spec: [ResponseCookies] is missing; the cookie lines of
    a response. *)
Definition ResponseCookies : Type := list string.

(** The data members of [HttpBridge], in the order of the header. *)
Record HttpBridge : Type := mkHttpBridge {
  context_for_request_ : loc;
  url_poster_ : option URLFetcher;
  created_on_loop_ : MessageLoop;
  io_loop_ : MessageLoop;
  url_for_request_ : GURL;
  content_type_ : string;
  request_content_ : list byte;
  extra_headers_ : string;
  request_completed_ : bool;
  request_succeeded_ : bool;
  http_response_code_ : Z;
  os_error_code_ : Z;
  response_content_ : list byte;
  http_post_completed_ : WaitableEvent;
  use_io_loop_for_testing_ : bool
}.

(** Modelled from the spec: the body of
    [HttpBridge(RequestContext* context, MessageLoop* io_loop)] is missing.  A
    new bridge has no target, no payload and no result, and its event is not
    signaled. *)
Definition HttpBridge_ctor (context : loc) (io_loop : MessageLoop) : HttpBridge :=
  {| context_for_request_ := context;
     url_poster_ := None;
     created_on_loop_ := SyncerLoop;
     io_loop_ := io_loop;
     url_for_request_ := mkGURL EmptyString 0;
     content_type_ := EmptyString;
     request_content_ := [];
     extra_headers_ := EmptyString;
     request_completed_ := false;
     request_succeeded_ := false;
     http_response_code_ := -1;
     os_error_code_ := -1;
     response_content_ := [];
     http_post_completed_ := mkEvent false 0;
     use_io_loop_for_testing_ := false |}.

(** Modelled from the spec: the bodies of the setters are missing.  They are
    pure configuration: each stores its arguments and nothing else. *)
Definition SetExtraRequestHeaders (headers : string) (b : HttpBridge) : HttpBridge :=
  {| context_for_request_ := context_for_request_ b;
     url_poster_ := url_poster_ b;
     created_on_loop_ := created_on_loop_ b;
     io_loop_ := io_loop_ b;
     url_for_request_ := url_for_request_ b;
     content_type_ := content_type_ b;
     request_content_ := request_content_ b;
     extra_headers_ := headers;
     request_completed_ := request_completed_ b;
     request_succeeded_ := request_succeeded_ b;
     http_response_code_ := http_response_code_ b;
     os_error_code_ := os_error_code_ b;
     response_content_ := response_content_ b;
     http_post_completed_ := http_post_completed_ b;
     use_io_loop_for_testing_ := use_io_loop_for_testing_ b |}.

Definition SetURL (url : string) (port : Z) (b : HttpBridge) : HttpBridge :=
  {| context_for_request_ := context_for_request_ b;
     url_poster_ := url_poster_ b;
     created_on_loop_ := created_on_loop_ b;
     io_loop_ := io_loop_ b;
     url_for_request_ := mkGURL url port;
     content_type_ := content_type_ b;
     request_content_ := request_content_ b;
     extra_headers_ := extra_headers_ b;
     request_completed_ := request_completed_ b;
     request_succeeded_ := request_succeeded_ b;
     http_response_code_ := http_response_code_ b;
     os_error_code_ := os_error_code_ b;
     response_content_ := response_content_ b;
     http_post_completed_ := http_post_completed_ b;
     use_io_loop_for_testing_ := use_io_loop_for_testing_ b |}.

(** The payload is the first [content_length] bytes at [content]. *)
Definition SetPostPayload
    (content_type : string) (content_length : Z) (content : list byte)
    (b : HttpBridge) : HttpBridge :=
  {| context_for_request_ := context_for_request_ b;
     url_poster_ := url_poster_ b;
     created_on_loop_ := created_on_loop_ b;
     io_loop_ := io_loop_ b;
     url_for_request_ := url_for_request_ b;
     content_type_ := content_type;
     request_content_ := take (Z.to_nat content_length) content;
     extra_headers_ := extra_headers_ b;
     request_completed_ := request_completed_ b;
     request_succeeded_ := request_succeeded_ b;
     http_response_code_ := http_response_code_ b;
     os_error_code_ := os_error_code_ b;
     response_content_ := response_content_ b;
     http_post_completed_ := http_post_completed_ b;
     use_io_loop_for_testing_ := use_io_loop_for_testing_ b |}.

(** Modelled from the spec: the body of [MakeAsynchronousPost] is missing.  It
    runs on the IO loop and hands the configured POST to a new fetcher, kept
    in [url_poster_]. *)
Definition MakeAsynchronousPost (b : HttpBridge) : HttpBridge :=
  {| context_for_request_ := context_for_request_ b;
     url_poster_ :=
       Some {| fetch_url := url_for_request_ b;
               fetch_context := context_for_request_ b;
               fetch_extra_headers := extra_headers_ b;
               upload_content_type := content_type_ b;
               upload_content := request_content_ b |};
     created_on_loop_ := created_on_loop_ b;
     io_loop_ := io_loop_ b;
     url_for_request_ := url_for_request_ b;
     content_type_ := content_type_ b;
     request_content_ := request_content_ b;
     extra_headers_ := extra_headers_ b;
     request_completed_ := request_completed_ b;
     request_succeeded_ := request_succeeded_ b;
     http_response_code_ := http_response_code_ b;
     os_error_code_ := os_error_code_ b;
     response_content_ := response_content_ b;
     http_post_completed_ := http_post_completed_ b;
     use_io_loop_for_testing_ := use_io_loop_for_testing_ b |}.

(** [void CallMakeAsynchronousPost() { MakeAsynchronousPost(); }] *)
Definition CallMakeAsynchronousPost (b : HttpBridge) : HttpBridge :=
  MakeAsynchronousPost b.

Definition is_success (s : Status) : bool :=
  match s with
  | SUCCESS => true
  | _ => false
  end.

(** Modelled from the spec: the body of [OnURLFetchComplete] is missing.  The
    completion handler classifies the outcome by the transport status, records
    every result field, lets go of the fetcher and fires the completion signal
    once.  The response cookies are ignored. *)
Definition OnURLFetchComplete
    (url : GURL) (st : URLRequestStatus) (response_code : Z)
    (cookies : ResponseCookies) (data : list byte)
    (b : HttpBridge) : HttpBridge :=
  {| context_for_request_ := context_for_request_ b;
     url_poster_ := None;
     created_on_loop_ := created_on_loop_ b;
     io_loop_ := io_loop_ b;
     url_for_request_ := url_for_request_ b;
     content_type_ := content_type_ b;
     request_content_ := request_content_ b;
     extra_headers_ := extra_headers_ b;
     request_completed_ := true;
     request_succeeded_ := is_success (status st);
     http_response_code_ := response_code;
     os_error_code_ := os_error st;
     response_content_ := data;
     http_post_completed_ := Signal (http_post_completed_ b);
     use_io_loop_for_testing_ := use_io_loop_for_testing_ b |}.

(** The conversion of a count of bytes to [int]: 32 bits, two's complement. *)
Definition int_of_size (n : nat) : Z :=
  (Z.of_nat n + 2147483648) mod 4294967296 - 2147483648.

(** Modelled from the spec: the bodies of the two response getters are
    missing.  The content is a range of bytes, the length is its length, handed
    back as the [int] the header declares. *)
Definition GetResponseContent (b : HttpBridge) : list byte :=
  response_content_ b.

Definition GetResponseContentLength (b : HttpBridge) : Z :=
  int_of_size (length (response_content_ b)).

(** The reading under which the reported length is the number of bytes of the
    reported content. *)
Definition length_is_byte_count (b : HttpBridge) : Prop :=
  GetResponseContentLength b = Z.of_nat (length (GetResponseContent b)).

(** What a reader who took the content for a NUL-terminated string would
    count: the bytes before the first NUL. *)
Fixpoint strlen (bytes : list byte) : nat :=
  match bytes with
  | [] => O
  | x00 :: _ => O
  | _ :: rest => S (strlen rest)
  end.

(** What [MakeSynchronousPost] hands back: its [bool] result and the two
    [int]s it writes through [os_error_code] and [response_code]. *)
Record PostResult : Type := mkPostResult {
  post_success : bool;
  post_os_error_code : Z;
  post_response_code : Z
}.

(** ** The blocking send, across the two loops *)

(** Modelled from the spec: the body of [MakeSynchronousPost] is missing.  It
    (1) posts [CallMakeAsynchronousPost] to the IO loop, (2) blocks the calling
    loop on [http_post_completed_], without a timeout, (3) once the event is
    signaled reads back the recorded result.  A bridge is good for one send: a
    send on a bridge whose request has completed is refused.  The three parts
    are the three definitions below; the interleaving with the IO loop is the
    relation [step]. *)
Inductive IoTask : Type := RunCallMakeAsynchronousPost.

Definition MakeSynchronousPost_enter (b : HttpBridge) : option (list IoTask) :=
  if request_completed_ b then None else Some [RunCallMakeAsynchronousPost].

Definition MakeSynchronousPost_may_wake (b : HttpBridge) : bool :=
  signaled (http_post_completed_ b).

Definition MakeSynchronousPost_result (b : HttpBridge) : PostResult :=
  {| post_success := request_succeeded_ b;
     post_os_error_code := os_error_code_ b;
     post_response_code := http_response_code_ b |}.

(** Where the calling loop is. *)
Inductive Caller : Type :=
| Configuring
| Blocked
| Returned (result : PostResult)
| Rejected.

(** One bridge, the loop that owns it and the queue of the IO loop. *)
Record System : Type := mkSystem {
  bridge : HttpBridge;
  caller : Caller;
  io_tasks : list IoTask
}.

Definition may_call (c : Caller) : bool :=
  match c with
  | Configuring | Returned _ => true
  | Blocked | Rejected => false
  end.

(** The calling loop enters [MakeSynchronousPost]. *)
Definition enter_send (s : System) : System :=
  match MakeSynchronousPost_enter (bridge s) with
  | Some tasks =>
      {| bridge := bridge s; caller := Blocked; io_tasks := io_tasks s ++ tasks |}
  | None =>
      {| bridge := bridge s; caller := Rejected; io_tasks := io_tasks s |}
  end.

(** What the fetch engine reports when a fetch ends. *)
Record Completion : Type := mkCompletion {
  completion_url : GURL;
  completion_status : URLRequestStatus;
  completion_response_code : Z;
  completion_cookies : ResponseCookies;
  completion_data : list byte
}.

Definition deliver (k : Completion) (b : HttpBridge) : HttpBridge :=
  OnURLFetchComplete (completion_url k) (completion_status k)
    (completion_response_code k) (completion_cookies k) (completion_data k) b.

Inductive step : System -> System -> Prop :=
| step_send (s : System) :
    may_call (caller s) = true ->
    step s (enter_send s)
| step_io_task (b : HttpBridge) (c : Caller) (rest : list IoTask) :
    step (mkSystem b c (RunCallMakeAsynchronousPost :: rest))
         (mkSystem (CallMakeAsynchronousPost b) c rest)
| step_fetch_complete (b : HttpBridge) (c : Caller) (tasks : list IoTask)
    (fetcher : URLFetcher) (k : Completion) :
    url_poster_ b = Some fetcher ->
    step (mkSystem b c tasks) (mkSystem (deliver k b) c tasks)
| step_wake (b : HttpBridge) (tasks : list IoTask) :
    MakeSynchronousPost_may_wake b = true ->
    step (mkSystem b Blocked tasks)
         (mkSystem b (Returned (MakeSynchronousPost_result b)) tasks).

(** The calls that configure a bridge before its send. *)
Inductive Setter : Type :=
| CallSetExtraRequestHeaders (headers : string)
| CallSetURL (url : string) (port : Z)
| CallSetPostPayload (content_type : string) (content_length : Z) (content : list byte).

Definition apply_setter (b : HttpBridge) (call : Setter) : HttpBridge :=
  match call with
  | CallSetExtraRequestHeaders headers => SetExtraRequestHeaders headers b
  | CallSetURL url port => SetURL url port b
  | CallSetPostPayload content_type content_length content =>
      SetPostPayload content_type content_length content b
  end.

Definition configure (calls : list Setter) (b : HttpBridge) : HttpBridge :=
  foldl apply_setter b calls.

(** A bridge out of the factory, configured, its owner about to send. *)
Definition initial_system (context : loc) (calls : list Setter) : System :=
  {| bridge := configure calls (HttpBridge_ctor context IOLoop);
     caller := Configuring;
     io_tasks := [] |}.

(** The states the system is ever in. *)
Definition bridge_invariant (s : System) : Prop :=
  let b := bridge s in
  let e := http_post_completed_ b in
  match caller s with
  | Configuring =>
      io_tasks s = [] /\ url_poster_ b = None /\
      request_completed_ b = false /\ signaled e = false /\ times_signaled e = O
  | Blocked =>
      (io_tasks s = [RunCallMakeAsynchronousPost] /\ url_poster_ b = None /\
       request_completed_ b = false /\ signaled e = false /\ times_signaled e = O) \/
      (io_tasks s = [] /\ is_Some (url_poster_ b) /\
       request_completed_ b = false /\ signaled e = false /\ times_signaled e = O) \/
      (io_tasks s = [] /\ url_poster_ b = None /\
       request_completed_ b = true /\ signaled e = true /\ times_signaled e = 1%nat)
  | Returned result =>
      io_tasks s = [] /\ url_poster_ b = None /\
      request_completed_ b = true /\ signaled e = true /\ times_signaled e = 1%nat /\
      result = MakeSynchronousPost_result b
  | Rejected =>
      io_tasks s = [] /\ url_poster_ b = None /\
      request_completed_ b = true /\ signaled e = true /\ times_signaled e = 1%nat
  end.

Definition sample_payload : list byte := [x6f; x70; x3d; x63; x6f; x6d; x6d; x69; x74].

Definition sample_calls : list Setter :=
  [CallSetURL "https://sync.example/command" 443;
   CallSetPostPayload "application/octet-stream" 9 sample_payload].

(** A body with a NUL in it. *)
Definition sample_body : list byte := [x6f; x6b; x00; x21].

Definition sample_completion_503 : Completion :=
  {| completion_url := sample_url;
     completion_status := mkStatus SUCCESS 0;
     completion_response_code := 503;
     completion_cookies := ["SID=1"];
     completion_data := [] |}.

Definition sample_completion_200 : Completion :=
  {| completion_url := sample_url;
     completion_status := mkStatus SUCCESS 0;
     completion_response_code := 200;
     completion_cookies := [];
     completion_data := sample_body |}.



(** A body of 2^31 bytes. *)
Definition huge_body : list byte := replicate (Z.to_nat 2147483648) x00.

Definition sample_completion_huge : Completion :=
  {| completion_url := sample_url;
     completion_status := mkStatus SUCCESS 0;
     completion_response_code := 200;
     completion_cookies := [];
     completion_data := huge_body |}.


(** The bridge holds what completion [k] reported. *)
Definition recorded (b : HttpBridge) (k : Completion) : Prop :=
  request_succeeded_ b = is_success (status (completion_status k)) /\
  os_error_code_ b = os_error (completion_status k) /\
  http_response_code_ b = completion_response_code k /\
  response_content_ b = completion_data k.

(** ** [HttpBridgeFactory] *)
















(* ===================================================================== *)
(** * Part II: theorems                                                   *)
(* ===================================================================== *)

(** ** The isolation policy *)

Lemma empty_string_false (s : string) : empty_string s = false <-> s <> EmptyString.
Proof. destruct s; simpl; split; congruence. Qed.

Lemma is_user_agent_set_spec (c : RequestContext) :
  is_user_agent_set c = true <-> user_agent_ c <> EmptyString.
Proof.
  unfold is_user_agent_set. rewrite negb_true_iff. apply empty_string_false.
Qed.

Lemma set_user_agents_snoc (uas : list string) (ua : string) (c : RequestContext) :
  set_user_agents (uas ++ [ua]) c = set_user_agent ua (set_user_agents uas c).
Proof. unfold set_user_agents. now rewrite foldl_app. Qed.

(** [set_user_agent] calls leave the two other members alone. *)
Lemma set_user_agents_members (uas : list string) (c : RequestContext) :
  baseline_context_ (set_user_agents uas c) = baseline_context_ c /\
  inherited (set_user_agents uas c) = inherited c.
Proof.
  induction uas as [| ua uas IH] using rev_ind.
  - split; reflexivity.
  - rewrite set_user_agents_snoc. exact IH.
Qed.

Lemma set_user_agents_last (uas : list string) (c : RequestContext) :
  user_agent_ (set_user_agents uas c) = List.last uas (user_agent_ c).
Proof.
  destruct uas as [| ua uas] using rev_ind; [reflexivity |].
  now rewrite set_user_agents_snoc, last_last.
Qed.

Section Policy.

(** The base-class implementation of [GetUserAgent], whatever it is. *)
Variable base_GetUserAgent : URLRequestContext -> GURL -> string.

Lemma GetUserAgent_set (c : RequestContext) (url : GURL) :
  is_user_agent_set c = true -> GetUserAgent base_GetUserAgent c url = user_agent_ c.
Proof.
  unfold is_user_agent_set, GetUserAgent.
  destruct (empty_string (user_agent_ c)); simpl; congruence.
Qed.

Lemma GetUserAgent_unset (c : RequestContext) (url : GURL) :
  is_user_agent_set c = false ->
  GetUserAgent base_GetUserAgent c url = base_GetUserAgent (inherited c) url.
Proof.
  unfold is_user_agent_set, GetUserAgent.
  destruct (empty_string (user_agent_ c)); simpl; congruence.
Qed.

(** The policy never reads [baseline_context_] to answer [GetUserAgent]: two
    policies that differ only in their baseline give the same answer. *)
Lemma GetUserAgent_ignores_baseline
    (members : URLRequestContext) (ua : string) (b1 b2 : ContextObject) (url : GURL) :
  GetUserAgent base_GetUserAgent (mkRequestContext members ua b1) url =
  GetUserAgent base_GetUserAgent (mkRequestContext members ua b2) url.
Proof. reflexivity. Qed.

(** Whatever the base class does, some baseline has a default user agent
    that a freshly built policy does not return. *)
Lemma GetUserAgent_fresh_not_baseline (url : GURL) :
  exists baseline : ContextObject,
    GetUserAgent base_GetUserAgent (RequestContext_ctor baseline) url <>
    virtual_GetUserAgent baseline url.
Proof.
  set (r := base_GetUserAgent (context_members sample_baseline) url).
  exists {| context_members := context_members sample_baseline;
            virtual_GetUserAgent := fun _ => if decide (r = "a") then "b" else "a";
            virtual_AllowSendingCookies := fun _ => true |}.
  change (r <> if decide (r = "a") then "b" else "a").
  destruct (decide (r = "a")) as [-> | Hr]; [discriminate | congruence].
Qed.

(** C2 (amended): for every URL, once a non-empty override has been set,
    [GetUserAgent] returns exactly that override; while no override is set it
    returns what the inherited [URLRequestContext::GetUserAgent] returns for
    that URL on the policy's own members, whatever [baseline_context_] is. *)
Theorem GetUserAgent_override_else_base_class
    (c : RequestContext) (ua : string) (url : GURL) :
  (ua <> EmptyString ->
   GetUserAgent base_GetUserAgent (set_user_agent ua c) url = ua) /\
  (is_user_agent_set c = false ->
   forall baseline : ContextObject,
     GetUserAgent base_GetUserAgent
       (mkRequestContext (inherited c) (user_agent_ c) baseline) url =
     base_GetUserAgent (inherited c) url).
Proof.
  split.
  - intros Hua. rewrite GetUserAgent_set; [reflexivity |].
    now apply is_user_agent_set_spec.
  - intros Hunset baseline.
    now rewrite GetUserAgent_unset.
Qed.

(** C3: the cookie-sending predicate of the policy is false for every
    request, whatever the request's target and state, whatever the policy's
    override and whatever the baseline context would answer; this is also
    what the network layer reads through the virtual member. *)
Theorem AllowSendingCookies_false (c : RequestContext) (request : URLRequest) :
  AllowSendingCookies c request = false /\
  virtual_AllowSendingCookies (as_context base_GetUserAgent c) request = false.
Proof. split; reflexivity. Qed.

(** C10: any sequence of [set_user_agent] calls changes [user_agent_] only:
    the baseline reference and the inherited members, hence the
    accept-language, the accept-charset and the proxy service, are the ones
    the policy had before, and the override is the last string set. *)
Theorem set_user_agents_frame (uas : list string) (c : RequestContext) :
  baseline_context_ (set_user_agents uas c) = baseline_context_ c /\
  inherited (set_user_agents uas c) = inherited c /\
  accept_language_ (inherited (set_user_agents uas c)) = accept_language_ (inherited c) /\
  accept_charset_ (inherited (set_user_agents uas c)) = accept_charset_ (inherited c) /\
  proxy_service_ (inherited (set_user_agents uas c)) = proxy_service_ (inherited c) /\
  user_agent_ (set_user_agents uas c) = List.last uas (user_agent_ c).
Proof.
  destruct (set_user_agents_members uas c) as [Hb Hi].
  rewrite Hi. repeat split; auto using set_user_agents_last.
Qed.

(** C8 (the constructor is modelled from the spec): a policy built over a
    baseline context shows the network layer the accept-language, the
    accept-charset and the proxy service of that baseline, before and after
    any sequence of [set_user_agent] calls. *)
Theorem RequestContext_settings_of_baseline
    (baseline : ContextObject) (uas : list string) :
  let observed :=
    context_members
      (as_context base_GetUserAgent (set_user_agents uas (RequestContext_ctor baseline))) in
  accept_language_ observed = accept_language_ (context_members baseline) /\
  accept_charset_ observed = accept_charset_ (context_members baseline) /\
  proxy_service_ observed = proxy_service_ (context_members baseline).
Proof.
  simpl.
  destruct (set_user_agents_members uas (RequestContext_ctor baseline)) as [_ Hi].
  rewrite Hi. repeat split.
Qed.

(** C9 (amended): setting the override to the empty string leaves the policy
    not set, also after a non-empty override: [is_user_agent_set] is false,
    [GetUserAgent] returns for every URL what the inherited
    [URLRequestContext::GetUserAgent] returns, the empty string is never
    returned as an override, and a policy that had no override before the calls
    is back in the very state it had. *)
Theorem set_user_agent_empty_is_unset
    (c : RequestContext) (uas : list string) (url : GURL) :
  let c' := set_user_agent EmptyString (set_user_agents uas c) in
  is_user_agent_set c' = false /\
  GetUserAgent base_GetUserAgent c' url = base_GetUserAgent (inherited c) url /\
  (user_agent_ c = EmptyString -> c' = c).
Proof.
  destruct (set_user_agents_members uas c) as [Hb Hi].
  simpl. split; [reflexivity |]. split.
  - unfold GetUserAgent. simpl. now rewrite Hi.
  - intros Hc. unfold set_user_agent. rewrite Hb, Hi.
    destruct c as [i u b]. simpl in *. now subst u.
Qed.

End Policy.

(** The baseline would send cookies with the request; the policy does not. *)
Example AllowSendingCookies_example :
  virtual_AllowSendingCookies sample_baseline sample_request = true /\
  virtual_AllowSendingCookies
    (as_context no_user_agent (RequestContext_ctor sample_baseline))
    sample_request = false.
Proof. split; reflexivity. Qed.

(** An override, then requests: the override is what is returned. *)
Example GetUserAgent_override_example :
  GetUserAgent no_user_agent
    (set_user_agent "SyncClient/1.0" (RequestContext_ctor sample_baseline))
    sample_url = "SyncClient/1.0".
Proof. reflexivity. Qed.

(** C2, at a concrete policy: both hypotheses hold and both conclusions
    follow. *)
Lemma GetUserAgent_override_else_base_class_witness :
  ("SyncClient/1.0" <> EmptyString /\
   GetUserAgent no_user_agent
     (set_user_agent "SyncClient/1.0" (RequestContext_ctor sample_baseline))
     sample_url = "SyncClient/1.0") /\
  (is_user_agent_set (RequestContext_ctor sample_baseline) = false /\
   GetUserAgent no_user_agent (RequestContext_ctor sample_baseline) sample_url =
   no_user_agent (inherited (RequestContext_ctor sample_baseline)) sample_url).
Proof.
  destruct (GetUserAgent_override_else_base_class no_user_agent
              (RequestContext_ctor sample_baseline) "SyncClient/1.0" sample_url)
    as [Hset Hunset].
  split; split.
  - discriminate.
  - apply Hset. discriminate.
  - reflexivity.
  - apply (Hunset eq_refl sample_baseline).
Defined.

(** C2, as stated, fails: a freshly built policy whose base class knows no
    user agent answers with the empty string, not with the default user agent
    of its baseline.  [GetUserAgent_fresh_not_baseline] shows that the choice
    of the base class does not matter. *)
Lemma GetUserAgent_unset_is_not_baseline_default :
  ~ falls_back_to_baseline no_user_agent (RequestContext_ctor sample_baseline) sample_url.
Proof.
  unfold falls_back_to_baseline. intros H.
  specialize (H eq_refl). vm_compute in H. discriminate H.
Qed.

(** C9, as stated, fails: after an override and then the empty override the
    policy does not answer with the default user agent of its baseline. *)
Lemma GetUserAgent_after_empty_override_is_not_baseline_default :
  ~ falls_back_to_baseline no_user_agent
      (set_user_agent EmptyString
         (set_user_agent "SyncClient/1.0" (RequestContext_ctor sample_baseline)))
      sample_url.
Proof.
  unfold falls_back_to_baseline. intros H.
  specialize (H eq_refl). vm_compute in H. discriminate H.
Qed.

(** C9, at a concrete policy: the hypothesis holds and the conclusions
    follow. *)
Lemma set_user_agent_empty_is_unset_witness :
  user_agent_ (RequestContext_ctor sample_baseline) = EmptyString /\
  is_user_agent_set
    (set_user_agent EmptyString
       (set_user_agents ["SyncClient/1.0"] (RequestContext_ctor sample_baseline))) = false /\
  set_user_agent EmptyString
    (set_user_agents ["SyncClient/1.0"] (RequestContext_ctor sample_baseline)) =
  RequestContext_ctor sample_baseline.
Proof.
  destruct (set_user_agent_empty_is_unset no_user_agent
              (RequestContext_ctor sample_baseline) ["SyncClient/1.0"] sample_url)
    as (Hset & _ & Hback).
  split; [reflexivity |]. split; [exact Hset |].
  apply Hback. reflexivity.
Defined.

(** ** The completion handler and the response getters *)




(** The HTTP status has no say in the classification. *)
Lemma success_ignores_response_code
    (b : HttpBridge) (url : GURL) (st : URLRequestStatus) (code1 code2 : Z)
    (cookies : ResponseCookies) (data : list byte) :
  request_succeeded_ (OnURLFetchComplete url st code1 cookies data b) =
  request_succeeded_ (OnURLFetchComplete url st code2 cookies data b).
Proof. reflexivity. Qed.

(** The response cookies leave no mark on the bridge. *)
Lemma OnURLFetchComplete_ignores_cookies
    (b : HttpBridge) (url : GURL) (st : URLRequestStatus) (code : Z)
    (cookies1 cookies2 : ResponseCookies) (data : list byte) :
  OnURLFetchComplete url st code cookies1 data b =
  OnURLFetchComplete url st code cookies2 data b.
Proof. reflexivity. Qed.

Lemma int_of_size_range (n : nat) :
  -2147483648 <= int_of_size n < 2147483648.
Proof.
  unfold int_of_size.
  pose proof (Z.mod_pos_bound (Z.of_nat n + 2147483648) 4294967296 eq_refl). lia.
Qed.

Lemma int_of_size_small (n : nat) :
  Z.of_nat n < 2147483648 -> int_of_size n = Z.of_nat n.
Proof.
  intros Hn. unfold int_of_size. rewrite Z.mod_small; lia.
Qed.

Lemma int_of_size_exact_iff (n : nat) :
  int_of_size n = Z.of_nat n <-> Z.of_nat n < 2147483648.
Proof.
  split; [| apply int_of_size_small].
  intros Heq. pose proof (int_of_size_range n). lia.
Qed.

(** C5 (amended; the getters and the completion handler are modelled from the
    spec): after a completion the content is the body the engine delivered,
    byte for byte, NULs included; the reported length is an [int], and it is
    the number of bytes of the reported content exactly when that number is
    below 2^31. *)
Theorem response_length_is_content_length_iff_int (b : HttpBridge) (k : Completion) :
  GetResponseContent (deliver k b) = completion_data k /\
  (Z.of_nat (length (completion_data k)) < 2147483648 ->
   GetResponseContentLength (deliver k b) =
   Z.of_nat (length (GetResponseContent (deliver k b)))) /\
  (length_is_byte_count b <->
   Z.of_nat (length (GetResponseContent b)) < 2147483648) /\
  -2147483648 <= GetResponseContentLength b < 2147483648.
Proof.
  split; [reflexivity |]. split; [| split].
  - intros Hfit. unfold GetResponseContentLength, GetResponseContent, deliver.
    cbn [OnURLFetchComplete response_content_]. now apply int_of_size_small.
  - apply int_of_size_exact_iff.
  - apply int_of_size_range.
Qed.

(** C5, at a body of four bytes. *)
Lemma response_length_is_content_length_iff_int_witness :
  Z.of_nat (length (completion_data sample_completion_200)) < 2147483648 /\
  GetResponseContentLength
    (deliver sample_completion_200 (HttpBridge_ctor 0%nat IOLoop)) = 4 /\
  GetResponseContent
    (deliver sample_completion_200 (HttpBridge_ctor 0%nat IOLoop)) = sample_body.
Proof.
  destruct (response_length_is_content_length_iff_int
              (HttpBridge_ctor 0%nat IOLoop) sample_completion_200)
    as (Hcontent & Hlength & _ & _).
  assert (Hfit : Z.of_nat (length (completion_data sample_completion_200)) < 2147483648)
    by reflexivity.
  split; [exact Hfit |]. split; [| exact Hcontent].
  rewrite (Hlength Hfit). reflexivity.
Defined.

(** C5, as stated, fails: for a body of 2^31 bytes the reported length is
    -2^31. *)
Lemma huge_body_length_is_not_byte_count :
  ~ length_is_byte_count (deliver sample_completion_huge (HttpBridge_ctor 0%nat IOLoop)).
Proof.
  unfold length_is_byte_count.
  change (int_of_size (length huge_body) <> Z.of_nat (length huge_body)).
  unfold huge_body. rewrite length_replicate.
  unfold int_of_size. rewrite Z2Nat.id by discriminate.
  discriminate.
Qed.

(** A body with a NUL: four bytes are reported, a string reader would see two. *)
Example response_length_counts_bytes :
  let b := deliver sample_completion_200 (HttpBridge_ctor 0%nat IOLoop) in
  GetResponseContentLength b = 4 /\ strlen (GetResponseContent b) = 2%nat.
Proof. split; reflexivity. Qed.

(** ** The blocking send *)

Lemma configure_snoc (calls : list Setter) (call : Setter) (b : HttpBridge) :
  configure (calls ++ [call]) b = apply_setter (configure calls b) call.
Proof. unfold configure. now rewrite foldl_app. Qed.

(** The setters do not touch the result state, the fetcher or the event. *)
Lemma configure_result_state (calls : list Setter) (b : HttpBridge) :
  url_poster_ (configure calls b) = url_poster_ b /\
  request_completed_ (configure calls b) = request_completed_ b /\
  http_post_completed_ (configure calls b) = http_post_completed_ b.
Proof.
  induction calls as [| call calls IH] using rev_ind.
  - repeat split.
  - rewrite configure_snoc. destruct call; simpl; exact IH.
Qed.

Lemma bridge_invariant_initial (context : loc) (calls : list Setter) :
  bridge_invariant (initial_system context calls).
Proof.
  unfold bridge_invariant, initial_system. simpl.
  destruct (configure_result_state calls (HttpBridge_ctor context IOLoop))
    as (Hp & Hc & He).
  rewrite Hp, Hc, He. repeat split.
Qed.

Lemma bridge_invariant_step (s s' : System) :
  bridge_invariant s -> step s s' -> bridge_invariant s'.
Proof.
  intros Hinv Hstep. destruct Hstep as [s Hcall | b c rest | b c tasks f k Hf | b tasks Hw].
  - destruct s as [b c tasks]. unfold bridge_invariant, enter_send in *. simpl in *.
    destruct c; try discriminate; simpl in *.
    + destruct Hinv as (-> & Hp & Hc & He & Hn).
      unfold MakeSynchronousPost_enter. rewrite Hc. simpl. left. auto.
    + destruct Hinv as (-> & Hp & Hc & He & Hn & _).
      unfold MakeSynchronousPost_enter. rewrite Hc. simpl. auto.
  - unfold bridge_invariant in *. simpl in *.
    destruct c; simpl in *.
    + destruct Hinv as (Ht & _). discriminate.
    + destruct Hinv as [(Ht & Hp & Hc & He & Hn) | [(Ht & _) | (Ht & _)]];
        try discriminate.
      injection Ht as ->. right. left. repeat split; eauto.
    + destruct Hinv as (Ht & _). discriminate.
    + destruct Hinv as (Ht & _). discriminate.
  - unfold bridge_invariant in *. simpl in *.
    destruct c; simpl in *.
    + destruct Hinv as (_ & Hp & _). congruence.
    + destruct Hinv as [(_ & Hp & _) | [(Ht & _ & Hc & He & Hn) | (_ & Hp & _)]];
        try congruence.
      right. right. rewrite Hn. repeat split; assumption.
    + destruct Hinv as (_ & Hp & _). congruence.
    + destruct Hinv as (_ & Hp & _). congruence.
  - unfold bridge_invariant, MakeSynchronousPost_may_wake in *. simpl in *.
    destruct Hinv as [(_ & _ & _ & He & _) | [(_ & _ & _ & He & _) | Hdone]];
      try congruence.
    destruct Hdone as (Ht & Hp & Hc & He & Hn). repeat split; assumption.
Qed.

Lemma bridge_invariant_reachable (context : loc) (calls : list Setter) (s : System) :
  rtc step (initial_system context calls) s -> bridge_invariant s.
Proof.
  intros Hrun.
  pose proof (bridge_invariant_initial context calls) as Hinv.
  induction Hrun as [s | s1 s2 s3 Hstep _ IH]; [exact Hinv |].
  apply IH. exact (bridge_invariant_step s1 s2 Hinv Hstep).
Qed.

(** Once the request has completed, the bridge holds what some completion
    reported, and nothing overwrites it. *)
Lemma recorded_step (s s' : System) :
  (request_completed_ (bridge s) = true -> exists k, recorded (bridge s) k) ->
  step s s' ->
  request_completed_ (bridge s') = true -> exists k, recorded (bridge s') k.
Proof.
  intros Hrec Hstep.
  destruct Hstep as [s Hcall | b c rest | b c tasks f k Hf | b tasks Hw]; simpl in *.
  - unfold enter_send. destruct (MakeSynchronousPost_enter (bridge s)); exact Hrec.
  - exact Hrec.
  - intros _. exists k. repeat split.
  - exact Hrec.
Qed.

(** What the send returns is what some completion reported: the success flag
    is that completion's transport verdict, the two codes are its codes, the
    content its body. *)
Lemma send_hands_back_a_completion
    (context : loc) (calls : list Setter) (s : System) (result : PostResult) :
  rtc step (initial_system context calls) s ->
  caller s = Returned result ->
  exists k : Completion,
    result = mkPostResult (is_success (status (completion_status k)))
               (os_error (completion_status k)) (completion_response_code k) /\
    GetResponseContent (bridge s) = completion_data k.
Proof.
  intros Hrun Hret.
  pose proof (bridge_invariant_reachable context calls s Hrun) as Hinv.
  unfold bridge_invariant in Hinv. rewrite Hret in Hinv.
  destruct Hinv as (_ & _ & Hc & _ & _ & Hr).
  assert (Hrec : request_completed_ (bridge s) = true -> exists k, recorded (bridge s) k).
  { clear Hret Hc Hr.
    assert (Hinit : request_completed_ (bridge (initial_system context calls)) = true ->
                    exists k, recorded (bridge (initial_system context calls)) k).
    { simpl. destruct (configure_result_state calls (HttpBridge_ctor context IOLoop))
        as (_ & Hc & _). rewrite Hc. discriminate. }
    induction Hrun as [s | s1 s2 s3 Hstep _ IH]; [exact Hinit |].
    apply IH. exact (recorded_step s1 s2 Hinit Hstep). }
  destruct (Hrec Hc) as [k (Hs & He & Hh & Hd)]. exists k.
  split; [| exact Hd].
  rewrite Hr. unfold MakeSynchronousPost_result. now rewrite Hs, He, Hh.
Qed.

(** The send does return: once the engine completes the fetch, with whatever
    outcome, the caller is handed the result of that completion. *)
Lemma send_returns (context : loc) (calls : list Setter) (k : Completion) :
  let b := configure calls (HttpBridge_ctor context IOLoop) in
  rtc step (initial_system context calls)
    (mkSystem (deliver k (CallMakeAsynchronousPost b))
       (Returned (MakeSynchronousPost_result (deliver k (CallMakeAsynchronousPost b))))
       []).
Proof.
  intros b.
  destruct (configure_result_state calls (HttpBridge_ctor context IOLoop))
    as (_ & Hc & _).
  eapply rtc_l.
  { apply step_send. reflexivity. }
  unfold enter_send, MakeSynchronousPost_enter, initial_system; simpl.
  rewrite Hc; simpl.
  eapply rtc_l; [apply step_io_task |].
  eapply rtc_l.
  { eapply step_fetch_complete with (k := k). reflexivity. }
  eapply rtc_l.
  { apply step_wake. reflexivity. }
  apply rtc_refl.
Qed.

(** C6 (the send is modelled from the spec): however the two loops
    interleave, when the send has returned the completion signal has been
    fired exactly once, by the completion handler, whose result the caller
    holds; the signal is never fired twice; and a second send on the bridge is
    rejected, posts no task and leaves the bridge as it is. *)
Theorem MakeSynchronousPost_returns_after_one_signal
    (context : loc) (calls : list Setter) (s : System) (result : PostResult) :
  rtc step (initial_system context calls) s ->
  caller s = Returned result ->
  times_signaled (http_post_completed_ (bridge s)) = 1%nat /\
  signaled (http_post_completed_ (bridge s)) = true /\
  request_completed_ (bridge s) = true /\
  result = MakeSynchronousPost_result (bridge s) /\
  MakeSynchronousPost_enter (bridge s) = None /\
  (forall s', step s s' ->
     caller s' = Rejected /\ bridge s' = bridge s /\ io_tasks s' = io_tasks s).
Proof.
  intros Hrun Hret.
  pose proof (bridge_invariant_reachable context calls s Hrun) as Hinv.
  unfold bridge_invariant in Hinv. rewrite Hret in Hinv.
  destruct Hinv as (Ht & Hp & Hc & He & Hn & Hr).
  assert (Henter : MakeSynchronousPost_enter (bridge s) = None)
    by (unfold MakeSynchronousPost_enter; now rewrite Hc).
  do 5 (split; [assumption |]).
  intros s' Hstep.
  destruct Hstep as [s0 Hcall | b c rest | b c tasks f k Hf | b tasks Hw];
    simpl in *; try congruence.
  unfold enter_send. rewrite Henter. repeat split.
Qed.

(** The signal is fired at most once, and not before the send. *)
Lemma signal_fired_at_most_once (context : loc) (calls : list Setter) (s : System) :
  rtc step (initial_system context calls) s ->
  (times_signaled (http_post_completed_ (bridge s)) <= 1)%nat /\
  (caller s = Configuring -> times_signaled (http_post_completed_ (bridge s)) = O).
Proof.
  intros Hrun.
  pose proof (bridge_invariant_reachable context calls s Hrun) as Hinv.
  unfold bridge_invariant in Hinv.
  destruct (caller s); intuition (try congruence; lia).
Qed.

(** C6, on a run: configure, send, the fetch ends with an HTTP 503, the
    caller wakes. *)
Lemma MakeSynchronousPost_returns_after_one_signal_witness :
  let b := deliver sample_completion_503
             (CallMakeAsynchronousPost
                (configure sample_calls (HttpBridge_ctor 0%nat IOLoop))) in
  let s := mkSystem b (Returned (mkPostResult true 0 503)) [] in
  rtc step (initial_system 0%nat sample_calls) s /\
  caller s = Returned (mkPostResult true 0 503) /\
  times_signaled (http_post_completed_ (bridge s)) = 1%nat /\
  MakeSynchronousPost_enter (bridge s) = None.
Proof.
  intros b s.
  assert (Hrun : rtc step (initial_system 0%nat sample_calls) s)
    by exact (send_returns 0%nat sample_calls sample_completion_503).
  destruct (MakeSynchronousPost_returns_after_one_signal
              0%nat sample_calls s (mkPostResult true 0 503) Hrun eq_refl)
    as (Hn & _ & _ & _ & Henter & _).
  repeat split; assumption.
Defined.

(** ** The factory *)









(** ** More on the inline members of the request context *)

(** X1: [is_user_agent_set] is true exactly when [GetUserAgent] no longer
    asks the base class: the answer is then the same under every base-class
    implementation and for every URL. *)
Theorem is_user_agent_set_iff_base_class_unused (c : RequestContext) :
  is_user_agent_set c = true <->
  (forall (base1 base2 : URLRequestContext -> GURL -> string) (url1 url2 : GURL),
     GetUserAgent base1 c url1 = GetUserAgent base2 c url2).
Proof.
  split.
  - intros Hset base1 base2 url1 url2.
    now rewrite !GetUserAgent_set.
  - intros Hsame. destruct (is_user_agent_set c) eqn:Hset; [reflexivity |].
    specialize (Hsame (fun _ _ => "a") (fun _ _ => "b")
                  (mkGURL EmptyString 0) (mkGURL EmptyString 0)).
    rewrite !GetUserAgent_unset in Hsame by exact Hset. discriminate Hsame.
Qed.

(** X1, at a policy with an override. *)
Lemma is_user_agent_set_iff_base_class_unused_witness :
  is_user_agent_set
    (mkRequestContext (context_members sample_baseline) "SyncClient/1.0" sample_baseline)
  = true /\
  GetUserAgent no_user_agent
    (mkRequestContext (context_members sample_baseline) "SyncClient/1.0" sample_baseline)
    sample_url =
  GetUserAgent (fun _ url => url_spec url)
    (mkRequestContext (context_members sample_baseline) "SyncClient/1.0" sample_baseline)
    (mkGURL "https://other.example/" 80).
Proof.
  split; [reflexivity |].
  apply (proj1 (is_user_agent_set_iff_base_class_unused _)). reflexivity.
Defined.

(** X2: the policy answers with an empty user agent in one case only: no
    override is set and the base class itself answers with the empty
    string. *)
Theorem GetUserAgent_empty_iff
    (base_GetUserAgent : URLRequestContext -> GURL -> string)
    (c : RequestContext) (url : GURL) :
  GetUserAgent base_GetUserAgent c url = EmptyString <->
  is_user_agent_set c = false /\ base_GetUserAgent (inherited c) url = EmptyString.
Proof.
  unfold GetUserAgent, is_user_agent_set.
  destruct (empty_string (user_agent_ c)) eqn:Hempty; simpl.
  - split; [intros H; split; [reflexivity | exact H] | intros [_ H]; exact H].
  - apply empty_string_false in Hempty.
    split; [intros H; contradiction | intros [H _]; discriminate H].
Qed.

(** X2, at a policy without an override under a base class that knows no
    user agent. *)
Lemma GetUserAgent_empty_iff_witness :
  is_user_agent_set
    (mkRequestContext (context_members sample_baseline) EmptyString sample_baseline)
  = false /\
  no_user_agent (context_members sample_baseline) sample_url = EmptyString /\
  GetUserAgent no_user_agent
    (mkRequestContext (context_members sample_baseline) EmptyString sample_baseline)
    sample_url = EmptyString.
Proof.
  split; [reflexivity |]. split; [reflexivity |].
  apply (proj2 (GetUserAgent_empty_iff no_user_agent _ sample_url)).
  split; reflexivity.
Defined.

(** X3: the last call of [set_user_agent] wins: a sequence of calls leaves
    the policy in the state the last call alone would have left it in, and the
    policy is then set exactly when the last string is not empty. *)
Theorem set_user_agent_last_call_wins
    (uas : list string) (ua : string) (c : RequestContext) :
  set_user_agents (uas ++ [ua]) c = set_user_agent ua c /\
  (is_user_agent_set (set_user_agents (uas ++ [ua]) c) = true <-> ua <> EmptyString).
Proof.
  destruct (set_user_agents_members uas c) as [Hb Hi].
  rewrite set_user_agents_snoc. split.
  - unfold set_user_agent. now rewrite Hb, Hi.
  - apply is_user_agent_set_spec.
Qed.

(** X3, on three calls. *)
Lemma set_user_agent_last_call_wins_witness :
  "Third/3.0" <> EmptyString /\
  set_user_agents (["First/1.0"; EmptyString] ++ ["Third/3.0"])
    (mkRequestContext (context_members sample_baseline) "Zero/0.0" sample_baseline) =
  mkRequestContext (context_members sample_baseline) "Third/3.0" sample_baseline /\
  is_user_agent_set
    (set_user_agents (["First/1.0"; EmptyString] ++ ["Third/3.0"])
       (mkRequestContext (context_members sample_baseline) "Zero/0.0" sample_baseline))
  = true.
Proof.
  destruct (set_user_agent_last_call_wins ["First/1.0"; EmptyString] "Third/3.0"
              (mkRequestContext (context_members sample_baseline) "Zero/0.0" sample_baseline))
    as [Hstate Hset].
  assert (Hne : "Third/3.0" <> EmptyString) by discriminate.
  split; [exact Hne |]. split; [exact Hstate |].
  apply (proj2 Hset). exact Hne.
Defined.

(** X4: no inline member reads [baseline_context_].  Two policies with the
    same inherited members and the same override, over whatever baselines,
    look the same to the network layer after the same calls of
    [set_user_agent]: same members, same user agent for every URL, same
    cookie answer for every request, same [is_user_agent_set]. *)
Theorem baseline_context_never_read
    (base_GetUserAgent : URLRequestContext -> GURL -> string)
    (c1 c2 : RequestContext) (uas : list string) :
  inherited c1 = inherited c2 ->
  user_agent_ c1 = user_agent_ c2 ->
  let seen1 := as_context base_GetUserAgent (set_user_agents uas c1) in
  let seen2 := as_context base_GetUserAgent (set_user_agents uas c2) in
  context_members seen1 = context_members seen2 /\
  (forall url, virtual_GetUserAgent seen1 url = virtual_GetUserAgent seen2 url) /\
  (forall request,
     virtual_AllowSendingCookies seen1 request =
     virtual_AllowSendingCookies seen2 request) /\
  is_user_agent_set (set_user_agents uas c1) = is_user_agent_set (set_user_agents uas c2).
Proof.
  intros Hi Hu. simpl.
  destruct (set_user_agents_members uas c1) as [_ Hi1].
  destruct (set_user_agents_members uas c2) as [_ Hi2].
  pose proof (set_user_agents_last uas c1) as Hu1.
  pose proof (set_user_agents_last uas c2) as Hu2.
  unfold GetUserAgent, is_user_agent_set.
  rewrite Hi1, Hi2, Hu1, Hu2, Hi, Hu. repeat split.
Qed.

(** X4, at two policies over baselines that disagree on the user agent and
    on cookies. *)
Lemma baseline_context_never_read_witness :
  let other := mkContextObject (context_members sample_baseline)
                 (fun _ => "Other/9.9") (fun _ => false) in
  let c1 := mkRequestContext (context_members sample_baseline) EmptyString sample_baseline in
  let c2 := mkRequestContext (context_members sample_baseline) EmptyString other in
  inherited c1 = inherited c2 /\
  user_agent_ c1 = user_agent_ c2 /\
  virtual_GetUserAgent (baseline_context_ c1) sample_url <>
  virtual_GetUserAgent (baseline_context_ c2) sample_url /\
  (forall url,
     GetUserAgent (fun _ url => url_spec url) (set_user_agents ["A/1"; EmptyString] c1) url =
     GetUserAgent (fun _ url => url_spec url) (set_user_agents ["A/1"; EmptyString] c2) url).
Proof.
  intros other c1 c2.
  destruct (baseline_context_never_read (fun _ url => url_spec url) c1 c2
              ["A/1"; EmptyString] eq_refl eq_refl) as (_ & Hua & _).
  split; [reflexivity |]. split; [reflexivity |]. split; [discriminate |].
  exact Hua.
Defined.
